(** * Play Store metadata fetcher: a shallow embedding of
      [scripts/python/fetch-metadata.py]

    The script resolves application names to Play Store identifiers
    ([scrape_google_play]) and fills a table with the seven metadata fields
    of every distinct name ([load_and_process_excel]).

    Layout of this development:
    - [PyStr], [PyVal], [PyFloat]: the Python values and builtins the script
      uses ([str.startswith], [in], [str.split], [dict.get], truthiness,
      [float], [round]);
    - [Soup]: the parsed HTML tree and the lookups the script performs on it;
    - [Scraper]: the two functions of the script, over an environment that
      supplies the network, the HTML parser and the JSON decoder;
    - the properties proved about them.

    What is outside the model: [print] (standard output is not observed),
    the spreadsheet file itself and the command line ([main]), and signals
    that are not instances of Python's [Exception] class (the handlers of
    the script are [except Exception], so an interrupt is not caught by
    them; the type [exn] below only holds what they catch). *)

From Stdlib Require Import ZArith Floats Ascii.
From stdpp Require Import base option list strings gmap sorting.

Set Warnings "-inexact-float,-register-all".
Set Default Proof Using "Type".

Local Open Scope Z_scope.

(** ** Exceptions and fallible results *)

(** The classes of [Exception] the script can meet. [RuntimeFailure] stands
    for whatever the libraries behind the environment raise
    ([requests.RequestException], a parser error, ...). *)
Inductive exn : Type :=
| AttributeError
| TypeError
| ValueError
| IndexError
| KeyError
| OverflowError
| UnboundLocalError
| RuntimeFailure (what : string).

Inductive result (A : Type) : Type :=
| Ok (a : A)
| Err (e : exn).
Arguments Ok {A} a.
Arguments Err {A} e.

#[global] Instance result_ret : MRet result := λ A a, Ok a.

#[global] Instance result_bind : MBind result := λ A B k r,
  match r with
  | Err e => Err e
  | Ok a => k a
  end.

(** ** Strings *)

Module PyStr.

(** [s.startswith(p)] *)
Definition startswith (s p : string) : bool := String.prefix p s.

(** [needle in haystack]: substring test. *)
Fixpoint contains (needle haystack : string) : bool :=
  if String.prefix needle haystack then true
  else match haystack with
       | EmptyString => false
       | String _ rest => contains needle rest
       end.

(** [s.split(sep)] for a separator of one character: the pieces between
    the occurrences of [sep]; never the empty list. *)
Fixpoint split (sep : Ascii.ascii) (s : string) : list string :=
  match s with
  | EmptyString => [EmptyString]
  | String c rest =>
      if Ascii.eqb c sep then EmptyString :: split sep rest
      else match split sep rest with
           | [] => [String c EmptyString]
           | piece :: pieces => String c piece :: pieces
           end
  end.

(** [l[i]] on a list of strings. *)
Definition getitem (l : list string) (i : nat) : result string :=
  match l !! i with
  | Some x => Ok x
  | None => Err IndexError
  end.

End PyStr.

(** ** Floating-point numbers

    Python's [float] is IEEE 754 binary64, which is what Rocq's primitive
    [float] is. [round(x, 2)] rounds the exact value of [x] to two decimals,
    ties to even, and returns the double nearest to that decimal. *)

Module PyFloat.

(** [n / d] rounded to the nearest integer, ties to the even one
    ([0 < d]). *)
Definition round_half_even (n d : Z) : Z :=
  let q := n / d in
  let r := n mod d in
  if 2 * r <? d then q
  else if d <? 2 * r then q + 1
  else if Z.even q then q else q + 1.

(** The double nearest to [±n/d]. *)
Definition nearest_ratio (negative : bool) (n d : positive) : float :=
  SF2Prim (SFdiv prec emax (S754_finite negative n 0) (S754_finite false d 0)).

(** [round(x, 2)]. Infinities and NaN round to themselves, and so does a
    double without a fractional part. *)
Definition round2 (x : float) : float :=
  match Prim2SF x with
  | S754_finite negative m e =>
      if 0 <=? e then x
      else match round_half_even (Z.pos m * 100) (2 ^ (- e)) with
           | Z.pos k => nearest_ratio negative k 100
           | _ => if negative then (-0)%float else 0%float
           end
  | _ => x
  end.

(** [float(n)] for an [int]: the nearest double, or [OverflowError]. *)
Definition of_int (n : Z) : result float :=
  match binary_normalize prec emax n 0 false with
  | S754_infinity _ => Err OverflowError
  | sf => Ok (SF2Prim sf)
  end.

End PyFloat.

(** ** Python values, as [json.loads] produces them *)

Inductive pyval : Type :=
| PNone
| PBool (b : bool)
| PInt (n : Z)
| PFloat (x : float)
| PStr (s : string)
| PList (items : list pyval)
| PDict (entries : gmap string pyval).

Module PyVal.

(** [bool(v)]: what [if v] and [x if v else y] test. *)
Definition truthy (v : pyval) : bool :=
  match v with
  | PNone => false
  | PBool b => b
  | PInt n => negb (n =? 0)
  | PFloat x => negb (PrimFloat.eqb x 0)
  | PStr s => negb (String.eqb s EmptyString)
  | PList items => match items with [] => false | _ => true end
  | PDict entries => negb (bool_decide (entries = ∅))
  end.

(** [obj.get(key, default)]: only a dictionary has the method. *)
Definition get (obj : pyval) (key : string) (dflt : pyval) : result pyval :=
  match obj with
  | PDict entries => Ok (default dflt (entries !! key))
  | _ => Err AttributeError
  end.

(** [obj[0]], as in [offers[0]]. The keys of a decoded JSON object are
    strings, so [0] is never one of them. *)
Definition getitem0 (obj : pyval) : result pyval :=
  match obj with
  | PList (first :: _) => Ok first
  | PList [] => Err IndexError
  | PDict _ => Err KeyError
  | PStr (String c _) => Ok (PStr (String c EmptyString))
  | PStr EmptyString => Err IndexError
  | PNone | PBool _ | PInt _ | PFloat _ => Err TypeError
  end.

End PyVal.

(** ** The parsed HTML document

    What [BeautifulSoup(markup, "lxml")] returns: a tree of tags and text
    nodes. The attributes the script reads ([href], [type]) hold one string
    each. *)

Module Soup.

Inductive element : Type :=
| Tag (name : string) (attrs : gmap string string) (contents : list element)
| NavigableString (text : string).

(** The nodes below [e] in document order (a tag comes before what it
    contains); [e] itself is not one of them. *)
Fixpoint descendants (e : element) : list element :=
  match e with
  | Tag _ _ contents =>
      (fix below (l : list element) : list element :=
         match l with
         | [] => []
         | child :: rest => child :: descendants child ++ below rest
         end) contents
  | NavigableString _ => []
  end.

(** What a search can ask of one attribute: that it is there ([True]), that
    it equals a string, or that a function accepts its value ([None] when
    the attribute is missing). *)
Inductive attr_rule : Type :=
| IsPresent
| Equals (value : string)
| Callable (accepts : option string → bool).

Definition rule_matches (rule : attr_rule) (value : option string) : bool :=
  match rule, value with
  | IsPresent, Some _ => true
  | IsPresent, None => false
  | Equals expected, Some v => String.eqb v expected
  | Equals _, None => false
  | Callable accepts, _ => accepts value
  end.

(** The filter of [find(name, attrs, **kwargs)]: the keyword arguments are
    written over the [attrs] dictionary ([attrs.update(kwargs)]), so for an
    attribute named in both the keyword's rule is the one kept. *)
Definition strainer (attrs kwargs : gmap string attr_rule) : gmap string attr_rule :=
  kwargs ∪ attrs.

Definition matches (name : string) (rules : gmap string attr_rule) (e : element) : bool :=
  match e with
  | Tag n tag_attrs _ =>
      String.eqb n name
      && forallb (λ '(attr, rule), rule_matches rule (tag_attrs !! attr))
                 (map_to_list rules)
  | NavigableString _ => false
  end.

(** [e.find(name, attrs, **kwargs)]: the first matching tag below [e] in
    document order, or [None]. *)
Definition find (name : string) (attrs kwargs : gmap string attr_rule)
    (e : element) : option element :=
  List.find (matches name (strainer attrs kwargs)) (descendants e).

(** [tag[key]] *)
Definition getitem (e : element) (key : string) : result string :=
  match e with
  | Tag _ tag_attrs _ =>
      match tag_attrs !! key with
      | Some v => Ok v
      | None => Err KeyError
      end
  | NavigableString _ => Err TypeError
  end.

(** [tag.string]: the text of a tag whose only content is a text node, or a
    tag with that property; [None] otherwise. *)
Fixpoint string_of (e : element) : option string :=
  match e with
  | NavigableString text => Some text
  | Tag _ _ [only] => string_of only
  | Tag _ _ _ => None
  end.

End Soup.

(** ** The environment of the script

    The network, the HTML parser and the JSON decoder are not part of the
    script: they are taken as given. The network may answer differently each
    time it is asked, so it carries a state of its own. *)

Record response : Type := {
  status_code : Z;
  content : string;
}.

Record Env : Type := {
  World : Type;
  (** [requests.get(url)]: a response, or an exception of the transport. *)
  requests_get : string → World → result response * World;
  (** [BeautifulSoup(markup, "lxml")] *)
  BeautifulSoup : string → result Soup.element;
  (** [json.loads(text)] *)
  json_loads : string → result pyval;
  (** [float(text)] on a [str]: [None] when the text is not a number. *)
  float_of_str : string → option float;
}.

(** ** The record of one application *)

Record metadata : Type := {
  application_id : pyval;
  friendly_name : pyval;
  description : pyval;
  category : pyval;
  content_rating : pyval;
  application_rating : pyval;
  pricing : pyval;
}.

(** [(text,) * 7] *)
Definition sentinel (text : string) : metadata :=
  {| application_id := PStr text;
     friendly_name := PStr text;
     description := PStr text;
     category := PStr text;
     content_rating := PStr text;
     application_rating := PStr text;
     pricing := PStr text |}.

(** The seven fields, in the order of the tuple. *)
Definition fields (r : metadata) : list pyval :=
  [application_id r; friendly_name r; description r; category r;
   content_rating r; application_rating r; pricing r].

Inductive endpoint : Type := Search | Details.

(** One call of [requests.get] and what came back. *)
Record event : Type := {
  ev_endpoint : endpoint;
  ev_url : string;
  ev_reply : result response;
}.

(** ** Control flow of a function body

    A statement either goes on to the next one, returns from the function,
    or raises. The state is the network and the calls made so far, oldest
    first. *)

Inductive ctl (A : Type) : Type :=
| Continue (a : A)
| Returned (r : metadata)
| Raised (e : exn).
Arguments Continue {A} a.
Arguments Returned {A} r.
Arguments Raised {A} e.

Module Scraper.
Section WithEnv.

Context (env : Env).

Definition state : Type := World env * list event.

Definition M (A : Type) : Type := state → ctl A * state.

#[global] Instance M_ret : MRet M := λ A a st, (Continue a, st).

#[global] Instance M_bind : MBind M := λ A B k m st,
  match m st with
  | (Continue a, st') => k a st'
  | (Returned r, st') => (Returned r, st')
  | (Raised e, st') => (Raised e, st')
  end.

(** [return r] *)
Definition return_ {A} (r : metadata) : M A := λ st, (Returned r, st).

Definition raise {A} (e : exn) : M A := λ st, (Raised e, st).

Definition lift {A} (r : result A) : M A :=
  match r with
  | Ok a => mret a
  | Err e => raise e
  end.

(** [try: body / except Exception as e: handler] *)
Definition try_except {A} (body : M A) (handler : exn → M A) : M A :=
  λ st, match body st with
        | (Raised e, st') => handler e st'
        | out => out
        end.

(** [requests.get(url)], recorded in the log. *)
Definition get (ep : endpoint) (url : string) : M response :=
  λ '(w, log),
    let '(reply, w') := requests_get env url w in
    let log' := log ++ [{| ev_endpoint := ep; ev_url := url; ev_reply := reply |}] in
    match reply with
    | Ok r => (Continue r, (w', log'))
    | Err e => (Raised e, (w', log'))
    end.

(** [float(v)] *)
Definition float_ (v : pyval) : result float :=
  match v with
  | PFloat x => Ok x
  | PInt n => PyFloat.of_int n
  | PBool b => Ok (if b then 1%float else 0%float)
  | PStr s =>
      match float_of_str env s with
      | Some x => Ok x
      | None => Err ValueError
      end
  | PNone | PList _ | PDict _ => Err TypeError
  end.

Definition search_url (app_name : string) : string :=
  "https://play.google.com/store/search?q=" +:+ app_name +:+ "&c=apps".

Definition details_url (app_name : string) : string :=
  "https://play.google.com/store/apps/details?id=" +:+ app_name +:+ "&hl=en".

(** [lambda href: href and "/store/apps/details?id=" in href] *)
Definition href_filter (href : option string) : bool :=
  match href with
  | Some h => negb (String.eqb h "") && PyStr.contains "/store/apps/details?id=" h
  | None => false
  end.

(** Lines 46-74: the search for a name without a dot. Goes on with the
    identifier to fetch, or returns the record of a failed search. *)
Definition resolve (app_name : string) : M string :=
  if negb (PyStr.contains "." app_name) then
    try_except
      (search_response ← get Search (search_url app_name);
       if status_code search_response =? 200 then
         search_soup ← lift (BeautifulSoup env (content search_response));
         match Soup.find "section" ∅ ∅ search_soup with
         | Some section =>
             match Soup.find "a" {[ "href" := Soup.Callable href_filter ]}
                                 {[ "href" := Soup.IsPresent ]} section with
             | Some link =>
                 href ← lift (Soup.getitem link "href");
                 lift (PyStr.getitem (PyStr.split "="%char href) 1)
             | None => return_ (sentinel "Not found")
             end
         | None => mret app_name
         end
       else mret app_name)
      (λ _, return_ (sentinel "Not found"))
  else mret app_name.

(** [round(float(aggregate_rating.get("ratingValue")), 2) if aggregate_rating
    else "Not Found"] *)
Definition rating (aggregate_rating : pyval) : result pyval :=
  if PyVal.truthy aggregate_rating then
    rating_value ← PyVal.get aggregate_rating "ratingValue" PNone;
    x ← float_ rating_value;
    Ok (PFloat (PyFloat.round2 x))
  else Ok (PStr "Not Found").

(** [offers[0].get("price", "Not Found") if offers else "Not Found"] *)
Definition price (offers : pyval) : result pyval :=
  if PyVal.truthy offers then
    first ← PyVal.getitem0 offers;
    PyVal.get first "price" (PStr "Not Found")
  else Ok (PStr "Not Found").

(** Lines 88-100: the fields read from the decoded structured data. *)
Definition extract (app_name : string) (data : pyval) : result metadata :=
  friendly_name ← PyVal.get data "name" (PStr "Not Found");
  description ← PyVal.get data "description" (PStr "Not Found");
  category ← PyVal.get data "applicationCategory" (PStr "Not Found");
  content_rating ← PyVal.get data "contentRating" (PStr "Not Found");
  aggregate_rating ← PyVal.get data "aggregateRating" (PDict ∅);
  application_rating ← rating aggregate_rating;
  offers ← PyVal.get data "offers" (PList []);
  pricing ← price offers;
  Ok {| application_id := PStr app_name;
        friendly_name := friendly_name;
        description := description;
        category := category;
        content_rating := content_rating;
        application_rating := application_rating;
        pricing := pricing |}.

(** [json.loads(script_tag.string)]: [None] is not text. *)
Definition loads (text : option string) : result pyval :=
  match text with
  | Some s => json_loads env s
  | None => Err TypeError
  end.

(** Lines 77-120: the fetch of the detail page. The seven local variables
    are bound only under [if script_tag]; the [return] after it reads them
    whether or not they are. *)
Definition fetch (app_name : string) : M Empty_set :=
  try_except
    (response ← get Details (details_url app_name);
     if status_code response =? 200 then
       soup ← lift (BeautifulSoup env (content response));
       locals ← match Soup.find "script"
                        {[ "type" := Soup.Equals "application/ld+json" ]} ∅ soup with
                | Some script_tag =>
                    data ← lift (loads (Soup.string_of script_tag));
                    bound ← lift (extract app_name data);
                    mret (Some bound)
                | None => mret None
                end;
       match locals with
       | Some bound => return_ bound
       | None => raise UnboundLocalError
       end
     else return_ (sentinel "Not found"))
    (λ _, return_ (sentinel "Not found")).

(** The body of [scrape_google_play(app_name)]. *)
Definition scrape_google_play (app_name : string) : M Empty_set :=
  if PyStr.startswith app_name "com.android"
     && negb (String.eqb app_name "com.android.chrome")
  then return_ (sentinel "Not applicable")
  else
    app_name ← resolve app_name;
    fetch app_name.

(** A call of a function whose body is [body]: its value or its exception. *)
Definition call (body : M Empty_set) (st : state) : result metadata * state :=
  match body st with
  | (Continue nothing, _) => match nothing with end
  | (Returned r, st') => (Ok r, st')
  | (Raised e, st') => (Err e, st')
  end.

End WithEnv.
End Scraper.

(** ** The table of [load_and_process_excel]

    pandas is not part of the script: what it reads from a file and what
    its columns accept are taken as given. *)

(** A cell of the sheet as pandas hands it over: a text, or the missing
    value that stands for an empty cell and for a text such as "NA".
    Numbers and dates are left out. *)
Inductive cell : Type :=
| Text (s : string)
| NaN.

#[global] Instance cell_eq_dec : EqDecision cell.
Proof. solve_decision. Defined.

#[global] Instance cell_countable : Countable cell :=
  inj_countable'
    (λ c, match c with Text s => Some s | NaN => None end)
    (λ o, match o with Some s => Text s | None => NaN end)
    (λ c, match c with Text _ | NaN => eq_refl end).

(** A row keeps the label it had in the sheet ([row_index]), the cell of
    the column "Application Name", and the columns the function adds. *)
Record row : Type := {
  row_index : nat;
  application_name : cell;
  columns : gmap string pyval;
}.

Module Pandas.

Record Library : Type := {
  (** [pd.read_excel(filename, header=None)]: the columns of the sheet, each
      from top to bottom, or the exception of the reader. *)
  read_excel : string → result (list (list cell));
  (** What [df.loc[index, column] = value] leaves in the cell of a column
      made by [df[column] = ""], for a [value] that is not a [str]: the value
      as the column keeps it, or the exception. *)
  setitem : pyval → result pyval;
}.

Definition DataFrame : Type := list row.

(** [df.head(n)] on one column: the first [n] cells, or all but the last
    [-n] when [n] is negative. *)
Definition head_column (n : Z) (column : list cell) : list cell :=
  if 0 <=? n then take (Z.to_nat n) column
  else take (length column - Z.to_nat (- n)) column.

(** [df.head(n)] *)
Definition head (n : Z) (df : list (list cell)) : list (list cell) :=
  head_column n <$> df.

(** The rows of a sheet of one column: they are labelled 0, 1, 2, ... *)
Definition labelled (names : list cell) : DataFrame :=
  imap (λ i name, {| row_index := i; application_name := name; columns := ∅ |}) names.

(** [df.columns = ["Application Name"]]: one name for one column, and a
    [ValueError] for any other number of columns. *)
Definition set_columns (df : list (list cell)) : result DataFrame :=
  match df with
  | [names] => Ok (labelled names)
  | _ => Err ValueError
  end.

(** [df.drop_duplicates(subset=["Application Name"])]: a row is dropped when
    an earlier row holds the same name; labels are kept. [seen] are the
    names of the rows already passed. *)
Fixpoint drop_duplicates_from (seen : list cell) (df : DataFrame) : DataFrame :=
  match df with
  | [] => []
  | r :: rest =>
      let kept := drop_duplicates_from (application_name r :: seen) rest in
      if bool_decide (application_name r ∈ seen) then kept else r :: kept
  end.

Definition drop_duplicates (df : DataFrame) : DataFrame :=
  drop_duplicates_from [] df.

(** [df[column] = value]: the column is set to [value] in every row. *)
Definition set_column (column : string) (value : pyval) (df : DataFrame) : DataFrame :=
  (λ r, {| row_index := row_index r;
           application_name := application_name r;
           columns := <[column := value]> (columns r) |}) <$> df.

(** What a column of texts keeps of [value]: a text as it is, anything else
    as the library decides. *)
Definition stored (lib : Library) (value : pyval) : result pyval :=
  match value with
  | PStr _ => Ok value
  | _ => setitem lib value
  end.

(** [df.loc[index, column] = value]: the cell is set in the rows labelled
    [index], unless the column refuses the value. *)
Definition loc_set (lib : Library) (index : nat) (column : string) (value : pyval)
    (df : DataFrame) : result DataFrame :=
  kept ← stored lib value;
  Ok ((λ r, if bool_decide (row_index r = index)
            then {| row_index := row_index r;
                    application_name := application_name r;
                    columns := <[column := kept]> (columns r) |}
            else r) <$> df).

End Pandas.

Module Loader.
Section WithEnv.

Context (env : Env) (lib : Pandas.Library).

(** The columns that hold the record, in the order of its fields. *)
Definition metadata_columns : list string :=
  ["Application ID"; "Friendly Name"; "Description"; "Category";
   "Content Rating"; "Application Rating"; "Pricing"].

(** Lines 163-169: the seven assignments of one turn of the loop; the
    first one that raises ends them. *)
Definition store (index : nat) (r : metadata) (df : Pandas.DataFrame)
    : result Pandas.DataFrame :=
  df ← Pandas.loc_set lib index "Application ID" (application_id r) df;
  df ← Pandas.loc_set lib index "Friendly Name" (friendly_name r) df;
  df ← Pandas.loc_set lib index "Description" (description r) df;
  df ← Pandas.loc_set lib index "Category" (category r) df;
  df ← Pandas.loc_set lib index "Content Rating" (content_rating r) df;
  df ← Pandas.loc_set lib index "Application Rating" (application_rating r) df;
  Pandas.loc_set lib index "Pricing" (pricing r) df.

(** [scrape_google_play(row["Application Name"])]: the missing value is a
    [float], which has no method [startswith], so line 41 raises before
    anything else happens. *)
Definition scrape_cell (name : cell) (st : Scraper.state env)
    : result metadata * Scraper.state env :=
  match name with
  | Text app_name => Scraper.call env (Scraper.scrape_google_play env app_name) st
  | NaN => (Err AttributeError, st)
  end.

(** Lines 152-169: the loop over the rows [iterrows()] yields, which fills
    the table [df] one row at a time. An exception ends it. *)
Fixpoint populate (todo : list row) (df : Pandas.DataFrame)
    (st : Scraper.state env) : result Pandas.DataFrame * Scraper.state env :=
  match todo with
  | [] => (Ok df, st)
  | r :: rest =>
      match scrape_cell (application_name r) st with
      | (Ok record, st') =>
          match store (row_index r) record df with
          | Ok df' => populate rest df' st'
          | Err e => (Err e, st')
          end
      | (Err e, st') => (Err e, st')
      end
  end.

(** Lines 143-149: the seven columns start out as empty strings. *)
Definition initialise (df : Pandas.DataFrame) : Pandas.DataFrame :=
  foldl (λ acc column, Pandas.set_column column (PStr "") acc) df metadata_columns.

(** Lines 134-138: the sheet, cut to its first rows, with its one column
    named. *)
Definition read (filename : string) (num_rows : option Z) : result Pandas.DataFrame :=
  df ← Pandas.read_excel lib filename;
  Pandas.set_columns match num_rows with
                     | Some n => Pandas.head n df
                     | None => df
                     end.

(** [load_and_process_excel(filename, num_rows)] *)
Definition load_and_process_excel (filename : string) (num_rows : option Z)
    (st : Scraper.state env) : result Pandas.DataFrame * Scraper.state env :=
  match read filename num_rows with
  | Ok df =>
      let df_unique := initialise (Pandas.drop_duplicates df) in
      populate df_unique df_unique st
  | Err e => (Err e, st)
  end.

(** The row [r] after the seven assignments of [record]. *)
Definition filled (r : row) (record : metadata) : row :=
  {| row_index := row_index r;
     application_name := application_name r;
     columns :=
       <["Pricing" := pricing record]>
         (<["Application Rating" := application_rating record]>
           (<["Content Rating" := content_rating record]>
             (<["Category" := category record]>
               (<["Description" := description record]>
                 (<["Friendly Name" := friendly_name record]>
                   (<["Application ID" := application_id record]> (columns r))))))) |}.

(** The row holds the record: each of the seven columns has the field of
    the same position. *)
Definition holds (r : row) (record : metadata) : Prop :=
  Forall2 (λ column value, columns r !! column = Some value)
    metadata_columns (fields record).

(** The table keeps [value] as it is. *)
Definition storable (value : pyval) : Prop :=
  Pandas.stored lib value = Ok value.

(** [scraped st df st']: starting from [st], one call of
    [scrape_google_play] per row of [df], in the order of the rows and each
    for the name of its row, returns the record the row holds, and leaves
    [st']. *)
Inductive scraped : Scraper.state env → Pandas.DataFrame → Scraper.state env → Prop :=
| scraped_nil st : scraped st [] st
| scraped_cons st st1 st2 r name record df :
    application_name r = Text name →
    Scraper.call env (Scraper.scrape_google_play env name) st
    = (Ok record, st1) →
    holds r record →
    scraped st1 df st2 →
    scraped st (r :: df) st2.

End WithEnv.
End Loader.

(** ** Reading a run *)

(** A call of [requests.get] failed: the transport raised, or the status is
    not 200. *)
Definition failed (reply : result response) : Prop :=
  match reply with
  | Err _ => True
  | Ok resp => status_code resp ≠ 200
  end.

(** The event a call of [requests.get] leaves in the log. *)
Definition requested (env : Env) (ep : endpoint) (url : string) (w : World env) : event :=
  {| ev_endpoint := ep; ev_url := url; ev_reply := (requests_get env url w).1 |}.

(** ** Concrete environments

    Environments with a stateless network, given by what each URL answers,
    what each document parses to and what each text decodes to. They are the
    inputs at which the statements below are exercised. *)

Module Fixtures.

Definition not_found_page : response := {| status_code := 404; content := "" |}.

(** A network given by a table of URLs; any other URL answers 404. *)
Fixpoint serve (table : list (string * result response)) (url : string) : result response :=
  match table with
  | [] => Ok not_found_page
  | (u, reply) :: rest => if String.eqb u url then reply else serve rest url
  end.

Definition empty_document : Soup.element := Soup.Tag "[document]" ∅ [].

Fixpoint parse_with (table : list (string * Soup.element)) (markup : string)
    : result Soup.element :=
  match table with
  | [] => Ok empty_document
  | (m, tree) :: rest => if String.eqb m markup then Ok tree else parse_with rest markup
  end.

(** A decoder given by a table of texts; any other text is malformed
    ([json.JSONDecodeError] is a [ValueError]). *)
Fixpoint decode_with (table : list (string * pyval)) (text : string) : result pyval :=
  match table with
  | [] => Err ValueError
  | (t, v) :: rest => if String.eqb t text then Ok v else decode_with rest text
  end.

Definition scripted (net : list (string * result response))
    (pages : list (string * Soup.element)) (texts : list (string * pyval)) : Env :=
  {| World := unit;
     requests_get := λ url w, (serve net url, w);
     BeautifulSoup := parse_with pages;
     json_loads := decode_with texts;
     float_of_str := λ _, None |}.

(** No connection at all: every request raises. *)
Definition offline : Env :=
  {| World := unit;
     requests_get := λ url w, (Err (RuntimeFailure "ConnectionError"), w);
     BeautifulSoup := parse_with [];
     json_loads := decode_with [];
     float_of_str := λ _, None |}.

(** The store answers 404 to everything. *)
Definition nothing_there : Env := scripted [] [] [].

Definition dq : string := String "034" EmptyString.

(** A detail page with one structured-data block holding [text]. *)
Definition detail_markup (text : string) : string :=
  "<html><head><script type='application/ld+json'>" +:+ text
  +:+ "</script></head><body></body></html>".

Definition detail_tree (text : string) : Soup.element :=
  Soup.Tag "[document]" ∅
    [Soup.Tag "html" ∅
       [Soup.Tag "head" ∅
          [Soup.Tag "script" {[ "type" := "application/ld+json" ]}
             [Soup.NavigableString text]];
        Soup.Tag "body" ∅ []]].

(** A store with one application, [com.example.app], whose detail page
    carries the structured data [text], which decodes to [data] when that
    is given. *)
Definition store_with (text : string) (data : option pyval) : Env :=
  scripted
    [("https://play.google.com/store/apps/details?id=com.example.app&hl=en",
      Ok {| status_code := 200; content := detail_markup text |})]
    [(detail_markup text, detail_tree text)]
    (match data with Some v => [(text, v)] | None => [] end).



(** [{"name": "Example", "aggregateRating": {"ratingCount": 12}}]: a rating
    block without [ratingValue]. *)
Definition unrated_text : string :=
  "{" +:+ dq +:+ "name" +:+ dq +:+ ": " +:+ dq +:+ "Example" +:+ dq +:+ ", "
  +:+ dq +:+ "aggregateRating" +:+ dq +:+ ": {" +:+ dq +:+ "ratingCount" +:+ dq
  +:+ ": 12}}".

Definition unrated_data : pyval :=
  PDict (<["name" := PStr "Example"]>
          {[ "aggregateRating" := PDict {[ "ratingCount" := PInt 12 ]} ]}).

(** [{"name": "Example", "aggregateRating": {"ratingValue": 4.3456}}] *)
Definition rated_text : string :=
  "{" +:+ dq +:+ "name" +:+ dq +:+ ": " +:+ dq +:+ "Example" +:+ dq +:+ ", "
  +:+ dq +:+ "aggregateRating" +:+ dq +:+ ": {" +:+ dq +:+ "ratingValue" +:+ dq
  +:+ ": 4.3456}}".

Definition rated_data : pyval :=
  PDict (<["name" := PStr "Example"]>
          {[ "aggregateRating" := PDict {[ "ratingValue" := PFloat 4.3456 ]} ]}).

(** A page of search results whose first section holds one link, to [href]. *)
Definition results_markup (href : string) : string :=
  "<html><body><section><a href='" +:+ href +:+ "'>Example</a></section></body></html>".

Definition results_tree (href : string) : Soup.element :=
  Soup.Tag "[document]" ∅
    [Soup.Tag "html" ∅
       [Soup.Tag "body" ∅
          [Soup.Tag "section" ∅
             [Soup.Tag "a" {[ "href" := href ]} [Soup.NavigableString "Example"]]]]].

(** A page without any section. *)
Definition bare_markup : string := "<html><body><p>Nothing</p></body></html>".

Definition bare_tree : Soup.element :=
  Soup.Tag "[document]" ∅
    [Soup.Tag "html" ∅
       [Soup.Tag "body" ∅
          [Soup.Tag "p" ∅ [Soup.NavigableString "Nothing"]]]].

(** The store of [com.example.app] (structured data as in [rated_text]),
    with a search page that answers [search] for the query "example". *)
Definition store_with_search (search : result response) (pages : list (string * Soup.element)) : Env :=
  scripted
    [("https://play.google.com/store/search?q=example&c=apps", search);
     ("https://play.google.com/store/apps/details?id=com.example.app&hl=en",
      Ok {| status_code := 200; content := detail_markup rated_text |})]
    ((detail_markup rated_text, detail_tree rated_text) :: pages)
    [(rated_text, rated_data)].

End Fixtures.

(** ** Concrete libraries *)

Module Sheets.

(** A library that reads [names] as the only column of any file, and whose
    columns take nothing but text. *)
Definition text_columns (names : list cell) : Pandas.Library :=
  {| Pandas.read_excel := λ _, Ok [names];
     Pandas.setitem := λ _, Err TypeError |}.

(** A library that reads [names] as the only column of any file, and whose
    columns take [None], a truth value or a number as it is, take the
    element of a list of one, and refuse any other list and any object. *)
Definition object_columns (names : list cell) : Pandas.Library :=
  {| Pandas.read_excel := λ _, Ok [names];
     Pandas.setitem := λ value,
       match value with
       | PList [only] => Ok only
       | PList _ | PDict _ => Err ValueError
       | _ => Ok value
       end |}.

(** A library that finds no column in any file. *)
Definition no_column : Pandas.Library :=
  {| Pandas.read_excel := λ _, Ok [];
     Pandas.setitem := λ _, Err TypeError |}.

(** [{"name": ["Example", "Example Pro"]}]: a name given as a list. *)
Definition two_names_text : string :=
  "{" +:+ Fixtures.dq +:+ "name" +:+ Fixtures.dq +:+ ": ["
  +:+ Fixtures.dq +:+ "Example" +:+ Fixtures.dq +:+ ", "
  +:+ Fixtures.dq +:+ "Example Pro" +:+ Fixtures.dq +:+ "]}".

Definition two_names_data : pyval :=
  PDict {[ "name" := PList [PStr "Example"; PStr "Example Pro"] ]}.

End Sheets.

(** * Properties *)

(** ** How a run of the two blocks looks *)

Ltac run_body :=
  unfold Scraper.fetch, Scraper.resolve, Scraper.try_except, Scraper.get,
    Scraper.lift, Scraper.return_, Scraper.raise;
  unfold mbind, Scraper.M_bind, mret, Scraper.M_ret.

Lemma fields_sentinel (text : string) :
  fields (sentinel text) = replicate 7 (PStr text).
Proof. reflexivity. Qed.

(** The record read from the structured data carries the identifier it was
    asked for. *)
Lemma extract_application_id (env : Env) (id : string) (data : pyval) (r : metadata) :
  Scraper.extract env id data = Ok r → application_id r = PStr id.
Proof.
  unfold Scraper.extract, mbind, result_bind.
  repeat case_match; intros; simplify_eq; done.
Qed.

(** The fetch makes exactly one request, to the detail page of [id], and
    returns; a failed request gives the "Not found" record, and any other
    record carries [id]. *)
Lemma fetch_run (env : Env) (id : string) (w : World env) (log : list event) :
  ∃ r,
    Scraper.fetch env id (w, log)
    = (Returned r,
       ((requests_get env (Scraper.details_url id) w).2,
        log ++ [requested env Details (Scraper.details_url id) w]))
    ∧ (failed (requests_get env (Scraper.details_url id) w).1 →
       r = sentinel "Not found")
    ∧ (r = sentinel "Not found" ∨ application_id r = PStr id).
Proof.
  run_body. unfold requested, failed.
  destruct (requests_get env (Scraper.details_url id) w) as [[resp|e] w'];
    simpl; [|by eauto].
  destruct (Z.eqb_spec (status_code resp) 200) as [Hok|Hko]; [|by eauto].
  repeat case_match; simplify_eq; eauto 6.
  eexists; split; [reflexivity|]. split; [done|].
  right. by eapply extract_application_id.
Qed.

(** The search block either leaves a dotted name alone, without a request,
    or makes exactly one request, to the search page of the name. It never
    raises. *)
Lemma resolve_run (env : Env) (q : string) (w : World env) (log : list event) :
  (PyStr.contains "." q = true
   ∧ Scraper.resolve env q (w, log) = (Continue q, (w, log)))
  ∨ (PyStr.contains "." q = false
     ∧ ∃ out,
         Scraper.resolve env q (w, log)
         = (out, ((requests_get env (Scraper.search_url q) w).2,
                  log ++ [requested env Search (Scraper.search_url q) w]))
         ∧ (out = Returned (sentinel "Not found") ∨ ∃ id, out = Continue id)).
Proof.
  run_body. unfold requested.
  destruct (PyStr.contains "." q); simpl; [by left|right].
  split; [done|].
  destruct (requests_get env (Scraper.search_url q) w) as [[resp|e] w'];
    simpl; [|by eauto].
  repeat case_match; simplify_eq; eauto.
Qed.

(** A call of [scrape_google_play] returns a record. *)
Lemma call_scrape_returns (env : Env) (app_name : string) (st : Scraper.state env) :
  ∃ r st',
    Scraper.call env (Scraper.scrape_google_play env app_name) st = (Ok r, st').
Proof.
  unfold Scraper.call, Scraper.scrape_google_play.
  destruct (_ && _); [by unfold Scraper.return_; eauto|].
  unfold mbind, Scraper.M_bind. destruct st as [w log].
  destruct (resolve_run env app_name w log)
    as [[_ ->]|(_ & out & -> & [->|[id ->]])]; [|by eauto|].
  - destruct (fetch_run env app_name w log) as (r & -> & _). eauto.
  - destruct (fetch_run env id (requests_get env (Scraper.search_url app_name) w).2
                (log ++ [requested env Search (Scraper.search_url app_name) w]))
      as (r & -> & _). eauto.
Qed.

(** ** The policy gate *)

(** C5. A name that begins with "com.android" and is not
    "com.android.chrome" is answered without any request (the network and
    the log are left as they were), by a record whose seven fields are
    "Not applicable". *)
Theorem reserved_namespace_not_applicable
    (env : Env) (app_name : string) (st : Scraper.state env) :
  PyStr.startswith app_name "com.android" = true →
  app_name ≠ "com.android.chrome" →
  ∃ r,
    Scraper.call env (Scraper.scrape_google_play env app_name) st = (Ok r, st)
    ∧ fields r = replicate 7 (PStr "Not applicable").
Proof.
  intros Hprefix Hnot.
  exists (sentinel "Not applicable"). split; [|reflexivity].
  unfold Scraper.call, Scraper.scrape_google_play.
  rewrite Hprefix.
  destruct (String.eqb_spec app_name "com.android.chrome"); [done|reflexivity].
Qed.

Lemma reserved_namespace_witness :
  (PyStr.startswith "com.android.settings" "com.android" = true
   ∧ "com.android.settings" ≠ "com.android.chrome")
  ∧ ∃ r,
      Scraper.call Fixtures.offline
        (Scraper.scrape_google_play Fixtures.offline "com.android.settings") (tt, [])
      = (Ok r, (tt, []))
      ∧ fields r = replicate 7 (PStr "Not applicable").
Proof.
  split; [split; [reflexivity|discriminate]|].
  apply (reserved_namespace_not_applicable Fixtures.offline "com.android.settings");
    [reflexivity|discriminate].
Defined.

(** ** The pass-through of identifiers *)

(** C6. For a name that contains a dot and is not stopped by the policy
    gate, the only request of the run is the detail fetch, and its URL
    carries the name as it was given; when the fetch yields a record other
    than "Not found", the record's identifier is that name. *)
Theorem dotted_name_is_fetched_unchanged
    (env : Env) (app_name : string) (w : World env) (log : list event) :
  PyStr.contains "." app_name = true →
  PyStr.startswith app_name "com.android"
    && negb (String.eqb app_name "com.android.chrome") = false →
  let url := "https://play.google.com/store/apps/details?id=" +:+ app_name +:+ "&hl=en" in
  ∃ r,
    Scraper.call env (Scraper.scrape_google_play env app_name) (w, log)
    = (Ok r,
       ((requests_get env url w).2,
        log ++ [{| ev_endpoint := Details;
                   ev_url := url;
                   ev_reply := (requests_get env url w).1 |}]))
    ∧ (r = sentinel "Not found" ∨ application_id r = PStr app_name).
Proof.
  intros Hdot Hgate url.
  unfold Scraper.call, Scraper.scrape_google_play. rewrite Hgate.
  unfold mbind, Scraper.M_bind.
  destruct (resolve_run env app_name w log) as [[_ ->]|[Hno _]]; [|congruence].
  destruct (fetch_run env app_name w log) as (r & -> & _ & Hid).
  exists r. split; [reflexivity|done].
Qed.

Lemma dotted_name_witness :
  (PyStr.contains "." "com.example.app" = true
   ∧ PyStr.startswith "com.example.app" "com.android"
       && negb (String.eqb "com.example.app" "com.android.chrome") = false)
  ∧ ∃ r,
      Scraper.call Fixtures.nothing_there
        (Scraper.scrape_google_play Fixtures.nothing_there "com.example.app") (tt, [])
      = (Ok r,
         (tt,
          [{| ev_endpoint := Details;
              ev_url := "https://play.google.com/store/apps/details?id=com.example.app&hl=en";
              ev_reply := Ok Fixtures.not_found_page |}]))
      ∧ (r = sentinel "Not found" ∨ application_id r = PStr "com.example.app").
Proof.
  split; [split; reflexivity|].
  apply (dotted_name_is_fetched_unchanged Fixtures.nothing_there "com.example.app" tt []);
    reflexivity.
Defined.

(** ** Failure of the detail fetch *)

(** C7. Whenever a run makes a detail fetch that fails (the transport
    raises, or the status is not 200), the record it returns has all seven
    fields, the identifier included, equal to "Not found". *)
Theorem failed_detail_fetch_not_found
    (env : Env) (app_name : string) (w w' : World env) (log added : list event)
    (r : metadata) (ev : event) :
  Scraper.call env (Scraper.scrape_google_play env app_name) (w, log)
  = (Ok r, (w', log ++ added)) →
  ev ∈ added →
  ev_endpoint ev = Details →
  failed (ev_reply ev) →
  fields r = replicate 7 (PStr "Not found").
Proof.
  unfold Scraper.call, Scraper.scrape_google_play.
  destruct (_ && _).
  { unfold Scraper.return_. intros [= _ _ Hlog] Hin.
    apply (f_equal length) in Hlog. rewrite length_app in Hlog.
    destruct added; [by apply elem_of_nil in Hin|simpl in Hlog; lia]. }
  unfold mbind, Scraper.M_bind.
  destruct (resolve_run env app_name w log)
    as [[_ ->]|(_ & out & -> & [->|[id ->]])].
  - destruct (fetch_run env app_name w log) as (r0 & -> & Hfail & _).
    intros [= -> _ Hlog] Hin Hep Hko.
    apply app_inv_head in Hlog. subst added.
    apply list_elem_of_singleton in Hin. subst ev.
    by rewrite (Hfail Hko).
  - intros [= <- _ _] _ _ _. reflexivity.
  - destruct (fetch_run env id (requests_get env (Scraper.search_url app_name) w).2
                (log ++ [requested env Search (Scraper.search_url app_name) w]))
      as (r0 & -> & Hfail & _).
    intros [= -> _ Hlog] Hin Hep Hko.
    rewrite <- (assoc_L (++)) in Hlog. apply app_inv_head in Hlog. subst added.
    apply elem_of_cons in Hin as [->|Hin]; [discriminate Hep|].
    apply list_elem_of_singleton in Hin. subst ev.
    by rewrite (Hfail Hko).
Qed.

Lemma failed_detail_fetch_witness :
  let env := Fixtures.nothing_there in
  let ev := {| ev_endpoint := Details;
               ev_url := "https://play.google.com/store/apps/details?id=com.example.app&hl=en";
               ev_reply := Ok Fixtures.not_found_page |} in
  (Scraper.call env (Scraper.scrape_google_play env "com.example.app") (tt, [])
   = (Ok (sentinel "Not found"), (tt, [] ++ [ev]))
   ∧ ev ∈ [ev] ∧ ev_endpoint ev = Details ∧ failed (ev_reply ev))
  ∧ fields (sentinel "Not found") = replicate 7 (PStr "Not found").
Proof.
  assert (Hrun :
    Scraper.call Fixtures.nothing_there
      (Scraper.scrape_google_play Fixtures.nothing_there "com.example.app") (tt, [])
    = (Ok (sentinel "Not found"),
       (tt, [] ++ [{| ev_endpoint := Details;
                      ev_url := "https://play.google.com/store/apps/details?id=com.example.app&hl=en";
                      ev_reply := Ok Fixtures.not_found_page |}])))
    by reflexivity.
  assert (Hko : failed (Ok Fixtures.not_found_page)) by (simpl; lia).
  split.
  { split; [exact Hrun|]. split; [apply list_elem_of_singleton; reflexivity|].
    split; [reflexivity|exact Hko]. }
  exact (failed_detail_fetch_not_found Fixtures.nothing_there "com.example.app"
           tt tt [] _ _ _ Hrun (proj2 (list_elem_of_singleton _ _) eq_refl) eq_refl Hko).
Defined.

(** ** No exception reaches the caller *)

(** C8. For every name, every network, every parser and every decoder, a
    call of [scrape_google_play] returns one record of seven fields; it
    never ends in an exception. *)
Theorem scrape_google_play_never_raises
    (env : Env) (app_name : string) (st : Scraper.state env) :
  ∃ r st',
    Scraper.call env (Scraper.scrape_google_play env app_name) st = (Ok r, st')
    ∧ length (fields r) = 7%nat.
Proof.
  destruct (call_scrape_returns env app_name st) as (r & st' & Hcall).
  exists r, st'. split; [exact Hcall|reflexivity].
Qed.

(** ** The structured data of a detail page *)

(** A dotted name that passes the gate goes straight to the fetch. *)
Lemma scrape_dotted (env : Env) (app_name : string) (st : Scraper.state env) :
  PyStr.contains "." app_name = true →
  PyStr.startswith app_name "com.android"
    && negb (String.eqb app_name "com.android.chrome") = false →
  Scraper.call env (Scraper.scrape_google_play env app_name) st
  = Scraper.call env (Scraper.fetch env app_name) st.
Proof.
  intros Hdot Hgate. destruct st as [w log].
  unfold Scraper.call, Scraper.scrape_google_play. rewrite Hgate.
  unfold mbind, Scraper.M_bind.
  destruct (resolve_run env app_name w log) as [[_ ->]|[Hno _]]; [done|congruence].
Qed.

(** When the detail page answers 200 and holds a structured-data block, the
    fetch returns what the block yields, and "Not found" seven times when
    decoding it or reading it raises. *)
Lemma fetch_decoded (env : Env) (id : string) (w : World env) (log : list event)
    (resp : response) (soup script_tag : Soup.element) :
  (requests_get env (Scraper.details_url id) w).1 = Ok resp →
  status_code resp = 200 →
  BeautifulSoup env (content resp) = Ok soup →
  Soup.find "script" {[ "type" := Soup.Equals "application/ld+json" ]} ∅ soup
  = Some script_tag →
  Scraper.call env (Scraper.fetch env id) (w, log)
  = (Ok match Scraper.loads env (Soup.string_of script_tag)
                ≫= Scraper.extract env id with
        | Ok r => r
        | Err _ => sentinel "Not found"
        end,
     ((requests_get env (Scraper.details_url id) w).2,
      log ++ [requested env Details (Scraper.details_url id) w])).
Proof.
  intros Hreply Hstatus Hparse Hfind.
  unfold Scraper.call. run_body. unfold requested.
  destruct (requests_get env (Scraper.details_url id) w) as [reply w'].
  simpl in *. subst reply. rewrite Hstatus. simpl.
  rewrite Hparse, Hfind.
  unfold result_bind.
  destruct (Scraper.loads env (Soup.string_of script_tag)) as [data|e]; [|done].
  by destruct (Scraper.extract env id data).
Qed.



(** ** Structured data that does not decode *)

(** C2, as the code has it. When the detail page answers 200 and its
    structured-data block holds text that [json.loads] rejects, the handler
    of the fetch returns the record of a failed fetch: all seven fields,
    the identifier included, are "Not found". *)
Theorem malformed_block_not_found
    (env : Env) (app_name : string) (w : World env) (log : list event)
    (resp : response) (soup script_tag : Soup.element) (text : string) (e : exn) :
  PyStr.contains "." app_name = true →
  PyStr.startswith app_name "com.android"
    && negb (String.eqb app_name "com.android.chrome") = false →
  (requests_get env (Scraper.details_url app_name) w).1 = Ok resp →
  status_code resp = 200 →
  BeautifulSoup env (content resp) = Ok soup →
  Soup.find "script" {[ "type" := Soup.Equals "application/ld+json" ]} ∅ soup
  = Some script_tag →
  Soup.string_of script_tag = Some text →
  json_loads env text = Err e →
  ∃ r,
    Scraper.call env (Scraper.scrape_google_play env app_name) (w, log)
    = (Ok r,
       ((requests_get env (Scraper.details_url app_name) w).2,
        log ++ [requested env Details (Scraper.details_url app_name) w]))
    ∧ fields r = replicate 7 (PStr "Not found").
Proof.
  intros Hdot Hgate Hreply Hstatus Hparse Hfind Htext Hjson.
  exists (sentinel "Not found"). split; [|reflexivity].
  rewrite (scrape_dotted env app_name (w, log) Hdot Hgate).
  rewrite (fetch_decoded env app_name w log resp soup script_tag
             Hreply Hstatus Hparse Hfind).
  rewrite Htext. unfold Scraper.loads. by rewrite Hjson.
Qed.

Lemma malformed_block_witness :
  let env := Fixtures.store_with "{" None in
  ∃ r,
    Scraper.call env (Scraper.scrape_google_play env "com.example.app") (tt, [])
    = (Ok r,
       (tt,
        [{| ev_endpoint := Details;
            ev_url := "https://play.google.com/store/apps/details?id=com.example.app&hl=en";
            ev_reply := Ok {| status_code := 200;
                              content := Fixtures.detail_markup "{" |} |}]))
    ∧ fields r = replicate 7 (PStr "Not found").
Proof.
  exact (malformed_block_not_found (Fixtures.store_with "{" None)
           "com.example.app" tt []
           {| status_code := 200; content := Fixtures.detail_markup "{" |}
           (Fixtures.detail_tree "{")
           (Soup.Tag "script" {[ "type" := "application/ld+json" ]}
              [Soup.NavigableString "{"])
           "{" ValueError
           eq_refl eq_refl eq_refl eq_refl eq_refl eq_refl eq_refl eq_refl).
Defined.

(** C2, as the specification states it, does not hold: it would have the
    identifier kept and the six other fields set to "Not Found" whenever the
    page answers 200 without a structured-data block, or with one that does
    not decode. On a page whose block holds the text "{" the record is
    "Not found" seven times. *)
Lemma malformed_block_counterexample :
  ¬ (∀ (env : Env) (app_name : string) (w : World env) (log : list event)
       (resp : response) (soup : Soup.element),
       PyStr.contains "." app_name = true →
       PyStr.startswith app_name "com.android"
         && negb (String.eqb app_name "com.android.chrome") = false →
       (requests_get env (Scraper.details_url app_name) w).1 = Ok resp →
       status_code resp = 200 →
       BeautifulSoup env (content resp) = Ok soup →
       (Soup.find "script" {[ "type" := Soup.Equals "application/ld+json" ]} ∅ soup
        = None
        ∨ ∃ script_tag text e,
            Soup.find "script" {[ "type" := Soup.Equals "application/ld+json" ]} ∅ soup
            = Some script_tag
            ∧ Soup.string_of script_tag = Some text
            ∧ json_loads env text = Err e) →
       ∃ st',
         Scraper.call env (Scraper.scrape_google_play env app_name) (w, log)
         = (Ok {| application_id := PStr app_name;
                  friendly_name := PStr "Not Found";
                  description := PStr "Not Found";
                  category := PStr "Not Found";
                  content_rating := PStr "Not Found";
                  application_rating := PStr "Not Found";
                  pricing := PStr "Not Found" |}, st')).
Proof.
  intros Hclaim.
  destruct (Hclaim (Fixtures.store_with "{" None) "com.example.app" tt []
              {| status_code := 200; content := Fixtures.detail_markup "{" |}
              (Fixtures.detail_tree "{")
              eq_refl eq_refl eq_refl eq_refl eq_refl) as [st' Hrun].
  - right.
    exists (Soup.Tag "script" {[ "type" := "application/ld+json" ]}
              [Soup.NavigableString "{"]), "{", ValueError.
    repeat split; reflexivity.
  - vm_compute in Hrun. discriminate Hrun.
Qed.

(** ** Where the code departs from its intent *)

(** C1. A search that answers 503, or a results page without any section,
    does not end the run: the name goes on to the detail fetch as it was
    typed, and the record is whatever that fetch gives. Only a raised
    exception or a section without a link returns "Not found" at once. *)
Lemma failed_search_still_fetches :
  let unavailable := Fixtures.store_with_search
                       (Ok {| status_code := 503; content := "" |}) [] in
  let bare := Fixtures.store_with_search
                (Ok {| status_code := 200; content := Fixtures.bare_markup |})
                [(Fixtures.bare_markup, Fixtures.bare_tree)] in
  let fetched := {| ev_endpoint := Details;
                    ev_url := "https://play.google.com/store/apps/details?id=example&hl=en";
                    ev_reply := Ok Fixtures.not_found_page |} in
  PyStr.contains "." "example" = false
  ∧ Scraper.call unavailable (Scraper.scrape_google_play unavailable "example") (tt, [])
    = (Ok (sentinel "Not found"),
       (tt, [{| ev_endpoint := Search;
                ev_url := "https://play.google.com/store/search?q=example&c=apps";
                ev_reply := Ok {| status_code := 503; content := "" |} |};
             fetched]))
  ∧ Scraper.call bare (Scraper.scrape_google_play bare "example") (tt, [])
    = (Ok (sentinel "Not found"),
       (tt, [{| ev_endpoint := Search;
                ev_url := "https://play.google.com/store/search?q=example&c=apps";
                ev_reply := Ok {| status_code := 200;
                                  content := Fixtures.bare_markup |} |};
             fetched])).
Proof. repeat split; reflexivity. Qed.

(** C4. The identifier is the text between the first and the second "=" of
    the link. For a link that carries a second parameter,
    "/store/apps/details?id=com.example.app&hl=en", that text is
    "com.example.app&hl", which is not the value of [id]; the detail page of
    "com.example.app" exists, yet the run asks for another one and ends in
    "Not found". *)
Lemma second_parameter_spoils_identifier :
  let href := "/store/apps/details?id=com.example.app&hl=en" in
  let env := Fixtures.store_with_search
               (Ok {| status_code := 200; content := Fixtures.results_markup href |})
               [(Fixtures.results_markup href, Fixtures.results_tree href)] in
  PyStr.getitem (PyStr.split "=" href) 1 = Ok "com.example.app&hl"
  ∧ Scraper.call env (Scraper.scrape_google_play env "example") (tt, [])
    = (Ok (sentinel "Not found"),
       (tt, [{| ev_endpoint := Search;
                ev_url := "https://play.google.com/store/search?q=example&c=apps";
                ev_reply := Ok {| status_code := 200;
                                  content := Fixtures.results_markup href |} |};
             {| ev_endpoint := Details;
                ev_url := "https://play.google.com/store/apps/details?id=com.example.app&hl&hl=en";
                ev_reply := Ok Fixtures.not_found_page |}]))
  ∧ ∃ r st',
      Scraper.call env (Scraper.scrape_google_play env "com.example.app") (tt, [])
      = (Ok r, st')
      ∧ application_id r = PStr "com.example.app"
      ∧ friendly_name r = PStr "Example".
Proof.
  split; [reflexivity|]. split; [reflexivity|].
  eexists _, _. split; [reflexivity|]. split; reflexivity.
Qed.

(** C3. A rating block without [ratingValue] makes [float(None)] raise, and
    the handler of the fetch then gives up the whole record, name included,
    instead of defaulting the rating alone. *)
Lemma rating_without_value_loses_record :
  let env := Fixtures.store_with Fixtures.unrated_text (Some Fixtures.unrated_data) in
  Scraper.extract env "com.example.app" Fixtures.unrated_data = Err TypeError
  ∧ ∃ st',
      Scraper.call env (Scraper.scrape_google_play env "com.example.app") (tt, [])
      = (Ok (sentinel "Not found"), st').
Proof. split; [reflexivity|]. eexists. reflexivity. Qed.

(** The rating of the specification's example: 4.3456 becomes 4.35, and
    the name is read as usual. *)
Lemma rating_is_rounded_to_two_decimals :
  let env := Fixtures.store_with Fixtures.rated_text (Some Fixtures.rated_data) in
  PyFloat.round2 4.3456 = 4.35%float
  ∧ ∃ st',
      Scraper.call env (Scraper.scrape_google_play env "com.example.app") (tt, [])
      = (Ok {| application_id := PStr "com.example.app";
               friendly_name := PStr "Example";
               description := PStr "Not Found";
               category := PStr "Not Found";
               content_rating := PStr "Not Found";
               application_rating := PFloat 4.35;
               pricing := PStr "Not Found" |}, st').
Proof. split; [reflexivity|]. eexists. reflexivity. Qed.

(** ** The table *)

Local Open Scope nat_scope.

(** The rows of a sheet whose first [k] cells have been passed. *)
Lemma read_excel_from_cons (k : nat) (name : cell) (cells : list cell) :
  imap (λ i n, {| row_index := k + i; application_name := n; columns := ∅ |})
       (name :: cells)
  = ({| row_index := k; application_name := name; columns := ∅ |}
     :: imap (λ i n, {| row_index := S k + i; application_name := n; columns := ∅ |})
             cells).
Proof.
  rewrite imap_cons. f_equal; [by rewrite Nat.add_0_r|].
  apply imap_ext. intros i n _. simpl. f_equal. lia.
Qed.

Lemma drop_duplicates_from_first (passed rest seen : list cell) (r : row) :
  (∀ x, x ∈ seen ↔ x ∈ passed) →
  r ∈ Pandas.drop_duplicates_from seen
        (imap (λ i n, {| row_index := length passed + i;
                         application_name := n; columns := ∅ |}) rest) →
  (passed ++ rest) !! row_index r = Some (application_name r)
  ∧ (application_name r ∉ take (row_index r) (passed ++ rest))
  ∧ (length passed ≤ row_index r)
  ∧ columns r = ∅.
Proof.
  revert passed seen.
  induction rest as [|name rest IH]; intros passed seen Hseen Hin.
  { by apply elem_of_nil in Hin. }
  rewrite read_excel_from_cons in Hin. simpl in Hin.
  assert (Htail :
    r ∈ Pandas.drop_duplicates_from (name :: seen)
          (imap (λ i n, {| row_index := S (length passed) + i;
                           application_name := n; columns := ∅ |}) rest) →
    (passed ++ name :: rest) !! row_index r = Some (application_name r)
    ∧ (application_name r ∉ take (row_index r) (passed ++ name :: rest))
    ∧ (length passed ≤ row_index r)
    ∧ columns r = ∅).
  { intros Hr.
    destruct (IH (passed ++ [name]) (name :: seen)) as (H1 & H2 & H3 & H4).
    - intros x. rewrite elem_of_cons, elem_of_app, list_elem_of_singleton, Hseen.
      tauto.
    - by rewrite length_app, Nat.add_1_r.
    - rewrite <- (assoc_L (++)) in H1, H2. simpl in H1, H2.
      rewrite length_app in H3. simpl in H3.
      repeat split; [done|done|lia|done]. }
  case_bool_decide as Hdup; [by apply Htail|].
  apply elem_of_cons in Hin as [->|Hin]; [|by apply Htail].
  simpl. repeat split.
  - by rewrite list_lookup_middle.
  - rewrite take_app_length. by rewrite <- Hseen.
  - lia.
Qed.

Lemma drop_duplicates_from_sorted (k : nat) (rest seen : list cell) :
  StronglySorted lt
    (row_index <$> Pandas.drop_duplicates_from seen
       (imap (λ i n, {| row_index := k + i; application_name := n; columns := ∅ |})
             rest))
  ∧ Forall (λ r, k ≤ row_index r)
      (Pandas.drop_duplicates_from seen
         (imap (λ i n, {| row_index := k + i; application_name := n; columns := ∅ |})
               rest)).
Proof.
  revert k seen. induction rest as [|name rest IH]; intros k seen.
  { split; constructor. }
  rewrite read_excel_from_cons. simpl.
  destruct (IH (S k) (name :: seen)) as [Hsorted Hbound].
  assert (Hweak : Forall (λ r, k ≤ row_index r)
            (Pandas.drop_duplicates_from (name :: seen)
               (imap (λ i n, {| row_index := S k + i; application_name := n;
                                columns := ∅ |}) rest))).
  { eapply Forall_impl; [exact Hbound|]. simpl. intros; lia. }
  case_bool_decide; [done|].
  split.
  - rewrite fmap_cons. constructor; [done|].
    apply Forall_fmap. eapply Forall_impl; [exact Hbound|]. simpl. intros; lia.
  - constructor; [simpl; lia|done].
Qed.

Lemma drop_duplicates_from_covers (seen : list cell) (df : Pandas.DataFrame) (name : cell) :
  name ∈ application_name <$> df →
  name ∈ seen ∨ name ∈ application_name <$> Pandas.drop_duplicates_from seen df.
Proof.
  revert seen. induction df as [|r df IH]; intros seen Hin.
  { by apply elem_of_nil in Hin. }
  rewrite fmap_cons in Hin. simpl.
  apply elem_of_cons in Hin as [->|Hin].
  - case_bool_decide; [by left|right]. rewrite fmap_cons. by left.
  - destruct (IH (application_name r :: seen) Hin) as [Hs|Hk].
    + apply elem_of_cons in Hs as [->|Hs]; [|by left].
      case_bool_decide; [by left|right]. rewrite fmap_cons. by left.
    + right. case_bool_decide; [done|]. rewrite fmap_cons. by right.
Qed.

(** What is kept was in the table. *)
Lemma drop_duplicates_from_subset (seen : list cell) (df : Pandas.DataFrame) (r : row) :
  r ∈ Pandas.drop_duplicates_from seen df → r ∈ df.
Proof.
  revert seen. induction df as [|r0 df IH]; intros seen Hin; [done|].
  simpl in Hin. case_bool_decide.
  - right. by eapply IH.
  - apply elem_of_cons in Hin as [->|Hin]; [by left|right]. by eapply IH.
Qed.

Lemma drop_duplicates_from_length (seen : list cell) (df : Pandas.DataFrame) :
  length (Pandas.drop_duplicates_from seen df)
  = size (list_to_set (C := gset cell) (application_name <$> df)
          ∖ list_to_set (C := gset cell) seen).
Proof.
  revert seen. induction df as [|r df IH]; intros seen.
  { assert (Hempty : @eq (gset cell) (∅ ∖ list_to_set seen) ∅).
    { apply set_eq. intros x. rewrite elem_of_difference.
      split; [intros [Hx _]|intros Hx]; by apply not_elem_of_empty in Hx. }
    simpl. by rewrite Hempty, size_empty. }
  specialize (IH (application_name r :: seen)).
  rewrite list_to_set_cons in IH.
  rewrite fmap_cons, list_to_set_cons.
  cbn [Pandas.drop_duplicates_from].
  set (names := list_to_set (C := gset cell) (application_name <$> df)) in *.
  set (old := list_to_set (C := gset cell) seen) in *.
  assert (Hold : application_name r ∈ seen ↔ application_name r ∈ old)
    by (subst old; by rewrite elem_of_list_to_set).
  clearbody names old.
  case_bool_decide as Hdup.
  - rewrite IH.
    assert (Hsame :
      @eq (gset cell) (names ∖ ({[application_name r]} ∪ old))
        (({[application_name r]} ∪ names) ∖ old)).
    { apply set_eq. intros x. rewrite !elem_of_difference, !elem_of_union,
        elem_of_singleton.
      destruct (decide (x = application_name r)) as [->|]; tauto. }
    by rewrite Hsame.
  - simpl. rewrite IH.
    assert (Hsplit :
      @eq (gset cell) (({[application_name r]} ∪ names) ∖ old)
        ({[application_name r]} ∪ names ∖ ({[application_name r]} ∪ old))).
    { apply set_eq. intros x. rewrite !elem_of_union, !elem_of_difference,
        !elem_of_union, elem_of_singleton.
      destruct (decide (x = application_name r)) as [->|]; tauto. }
    assert (Hapart : {[application_name r]}
                     ## names ∖ ({[application_name r]} ∪ old)).
    { intros x. rewrite elem_of_singleton, elem_of_difference, elem_of_union,
        elem_of_singleton. tauto. }
    rewrite Hsplit, (size_union _ _ Hapart). by rewrite size_singleton.
Qed.

Lemma labelled_names (names : list cell) :
  application_name <$> Pandas.labelled names = names.
Proof.
  unfold Pandas.labelled. apply list_eq. intros i.
  rewrite list_lookup_fmap, list_lookup_imap. by destruct (names !! i).
Qed.

(** Distinct texts are distinct cells. *)
Lemma size_texts (cells : list string) :
  size (list_to_set (C := gset cell) (Text <$> cells))
  = size (list_to_set (C := gset string) cells).
Proof.
  induction cells as [|name cells IH].
  { rewrite fmap_nil, !list_to_set_nil. by rewrite !size_empty. }
  rewrite fmap_cons, !list_to_set_cons.
  destruct (decide (name ∈ cells)) as [Hin|Hout].
  - assert (H1 : @eq (gset string) ({[name]} ∪ list_to_set cells) (list_to_set cells)).
    { apply set_eq. intros x. rewrite elem_of_union, elem_of_singleton,
        elem_of_list_to_set. split; [intros [->|]; done|by right]. }
    assert (H2 : @eq (gset cell) ({[Text name]} ∪ list_to_set (Text <$> cells))
                   (list_to_set (Text <$> cells))).
    { apply set_eq. intros x. rewrite elem_of_union, elem_of_singleton,
        elem_of_list_to_set. split; [intros [->|]; [|done]|by right].
      apply list_elem_of_fmap. by exists name. }
    by rewrite H1, H2.
  - assert (H1 : {[name]} ## list_to_set (C := gset string) cells).
    { intros x. rewrite elem_of_singleton, elem_of_list_to_set.
      by intros ->. }
    assert (H2 : {[Text name]} ## list_to_set (C := gset cell) (Text <$> cells)).
    { intros x. rewrite elem_of_singleton, elem_of_list_to_set.
      intros -> (y & [= <-] & Hy)%list_elem_of_fmap. done. }
    rewrite (size_union _ _ H1), (size_union _ _ H2), !size_singleton.
    by rewrite IH.
Qed.

Lemma StronglySorted_lt_NoDup (l : list nat) : StronglySorted lt l → NoDup l.
Proof.
  induction 1 as [|x l _ IH Hall]; constructor; [|done].
  intros Hin. rewrite Forall_forall in Hall. specialize (Hall x Hin). lia.
Qed.

(** A row is known by its label and its name; filling it changes neither. *)
Lemma initialise_keys (df : Pandas.DataFrame) :
  (λ r, (row_index r, application_name r)) <$> Loader.initialise df
  = (λ r, (row_index r, application_name r)) <$> df.
Proof.
  unfold Loader.initialise, Loader.metadata_columns, Pandas.set_column. simpl.
  rewrite <- !list_fmap_compose. by apply list_fmap_ext.
Qed.

(** When the table keeps the seven fields as they are, the assignments go
    through and fill the row of the label. *)
Lemma store_fmap (lib : Pandas.Library) (index : nat) (record : metadata)
    (df : Pandas.DataFrame) :
  Forall (Loader.storable lib) (fields record) →
  Loader.store lib index record df
  = Ok ((λ r, if bool_decide (row_index r = index) then Loader.filled r record else r)
        <$> df).
Proof.
  unfold fields, Loader.storable. intros Hall.
  repeat (apply Forall_cons in Hall as [? Hall]).
  unfold Loader.store, Pandas.loc_set, mbind, result_bind.
  repeat match goal with H : Pandas.stored _ _ = Ok _ |- _ => rewrite H; clear H end.
  f_equal. rewrite <- !list_fmap_compose.
  apply list_fmap_ext. intros i r _. unfold compose, Loader.filled.
  repeat case_bool_decide; simpl in *; done.
Qed.

Lemma store_middle (lib : Pandas.Library) (record : metadata) (r : row)
    (before after : Pandas.DataFrame) :
  Forall (Loader.storable lib) (fields record) →
  NoDup (row_index <$> (before ++ r :: after)) →
  Loader.store lib (row_index r) record (before ++ r :: after)
  = Ok (before ++ Loader.filled r record :: after).
Proof.
  intros Hkeeps Hnodup. rewrite (store_fmap lib _ _ _ Hkeeps). f_equal.
  rewrite fmap_app, fmap_cons.
  rewrite fmap_app, fmap_cons in Hnodup.
  apply NoDup_app in Hnodup as (_ & Hbefore & [Hafter _]%NoDup_cons).
  rewrite bool_decide_eq_true_2 by done.
  f_equal; [|f_equal]; rewrite <- list_fmap_id; apply list_fmap_ext;
    intros i x Hx; apply list_elem_of_lookup_2 in Hx;
    rewrite bool_decide_eq_false_2; [done| |done|].
  - intros Heq. apply (Hbefore (row_index x)).
    + apply list_elem_of_fmap. by exists x.
    + rewrite Heq. by left.
  - intros Heq. apply Hafter. rewrite <- Heq.
    apply list_elem_of_fmap. by exists x.
Qed.

Lemma filled_holds (r : row) (record : metadata) :
  Loader.holds (Loader.filled r record) record.
Proof.
  unfold Loader.holds, Loader.metadata_columns, fields, Loader.filled. simpl.
  repeat constructor; by simplify_map_eq.
Qed.

(** The loop fills the rows it is given, in their order, and ends without
    an exception, when their names are texts and the table keeps what the
    calls return. *)
Lemma populate_fills (env : Env) (lib : Pandas.Library)
    (todo before : Pandas.DataFrame) (st : Scraper.state env) :
  NoDup (row_index <$> (before ++ todo)) →
  Forall (λ r, ∃ name,
            application_name r = Text name
            ∧ ∀ st0 record st1,
                Scraper.call env (Scraper.scrape_google_play env name) st0
                = (Ok record, st1) →
                Forall (Loader.storable lib) (fields record)) todo →
  ∃ after st',
    Loader.populate env lib todo (before ++ todo) st = (Ok (before ++ after), st')
    ∧ (λ r, (row_index r, application_name r)) <$> after
      = (λ r, (row_index r, application_name r)) <$> todo
    ∧ Loader.scraped env st after st'.
Proof.
  revert before st. induction todo as [|r todo IH]; intros before st Hnodup Hall.
  { exists [], st. repeat split; constructor. }
  apply Forall_cons in Hall as [(name & Hname & Hkeeps) Hall].
  simpl. rewrite Hname. simpl.
  destruct (call_scrape_returns env name st) as (record & st1 & Hcall).
  rewrite Hcall, (store_middle lib record r before todo (Hkeeps _ _ _ Hcall) Hnodup).
  destruct (IH (before ++ [Loader.filled r record]) st1)
    as (after & st' & Hrun & Hkeys & Hrows).
  { rewrite <- (assoc_L (++)). simpl.
    rewrite fmap_app, fmap_cons. rewrite fmap_app, fmap_cons in Hnodup.
    exact Hnodup. }
  { exact Hall. }
  rewrite <- (assoc_L (++)) in Hrun. simpl in Hrun.
  exists (Loader.filled r record :: after), st'. split; [|split].
  - rewrite Hrun. by rewrite <- (assoc_L (++)).
  - rewrite !fmap_cons, Hkeys. simpl. by rewrite Hname.
  - econstructor; [exact Hname|exact Hcall|apply filled_holds|exact Hrows].
Qed.

(** The run on a sheet of one column of texts. *)
Lemma load_texts (env : Env) (lib : Pandas.Library) (filename : string)
    (cells : list string) (st : Scraper.state env) :
  Pandas.read_excel lib filename = Ok [Text <$> cells] →
  (∀ name st0 record st1,
     name ∈ cells →
     Scraper.call env (Scraper.scrape_google_play env name) st0 = (Ok record, st1) →
     Forall (Loader.storable lib) (fields record)) →
  ∃ df st',
    Loader.load_and_process_excel env lib filename None st = (Ok df, st')
    ∧ (λ r, (row_index r, application_name r)) <$> df
      = (λ r, (row_index r, application_name r))
        <$> Pandas.drop_duplicates (Pandas.labelled (Text <$> cells))
    ∧ Loader.scraped env st df st'.
Proof.
  intros Hread Hkeeps.
  unfold Loader.load_and_process_excel, Loader.read.
  rewrite Hread. simpl.
  set (kept := Pandas.drop_duplicates (Pandas.labelled (Text <$> cells))).
  assert (Hkeys0 := initialise_keys kept).
  destruct (populate_fills env lib (Loader.initialise kept) [] st)
    as (df & st' & Hrun & Hkeys & Hrows).
  - simpl. apply (f_equal (fmap fst)) in Hkeys0.
    rewrite <- !list_fmap_compose in Hkeys0.
    change (fst ∘ (λ r, (row_index r, application_name r))) with row_index in Hkeys0.
    rewrite Hkeys0. apply StronglySorted_lt_NoDup.
    apply (drop_duplicates_from_sorted 0 (Text <$> cells) []).
  - apply Forall_forall. intros r Hr.
    assert (Hkey : (row_index r, application_name r)
                   ∈ (λ r, (row_index r, application_name r)) <$> kept).
    { rewrite <- Hkeys0. apply list_elem_of_fmap. by exists r. }
    apply list_elem_of_fmap in Hkey as (r0 & [= Hi Hn] & Hr0).
    apply drop_duplicates_from_subset in Hr0.
    assert (Hcell : application_name r0 ∈ Text <$> cells).
    { rewrite <- (labelled_names (Text <$> cells)).
      apply list_elem_of_fmap. by exists r0. }
    apply list_elem_of_fmap in Hcell as (name & Hname & Hin).
    exists name. split; [congruence|]. intros st0 record st1. by apply Hkeeps.
  - simpl in Hrun. exists df, st'. split; [exact Hrun|].
    split; [by rewrite Hkeys, Hkeys0|exact Hrows].
Qed.

(** C9, as the code has it. For a sheet of one column whose cells are all
    texts, and a store and a table such that the table keeps every field
    the calls return as it is, [load_and_process_excel] ends without an
    exception and returns a table that
    - has as many rows as the sheet has distinct names;
    - has a row for every name of the sheet;
    - keeps, for each row, the place of the first occurrence of its name
      (the label of the row is a position of the sheet that holds the name,
      and no earlier position does);
    - keeps the rows in the order of those places;
    - holds in each row the seven fields of the record that
      [scrape_google_play] returned for the name of the row, the calls
      being made row after row. *)
Theorem one_record_per_distinct_name
    (env : Env) (lib : Pandas.Library) (filename : string) (cells : list string)
    (st : Scraper.state env) :
  Pandas.read_excel lib filename = Ok [Text <$> cells] →
  (∀ name st0 record st1,
     name ∈ cells →
     Scraper.call env (Scraper.scrape_google_play env name) st0 = (Ok record, st1) →
     Forall (Loader.storable lib) (fields record)) →
  ∃ df st',
    Loader.load_and_process_excel env lib filename None st = (Ok df, st')
    ∧ length df = size (list_to_set (C := gset string) cells)
    ∧ (∀ name, name ∈ cells → ∃ r, r ∈ df ∧ application_name r = Text name)
    ∧ (∀ r, r ∈ df →
         ∃ name,
           application_name r = Text name
           ∧ cells !! row_index r = Some name
           ∧ (name ∉ take (row_index r) cells))
    ∧ StronglySorted lt (row_index <$> df)
    ∧ Loader.scraped env st df st'.
Proof.
  intros Hread Hkeeps.
  destruct (load_texts env lib filename cells st Hread Hkeeps)
    as (df & st' & Hrun & Hkeys & Hrows).
  set (kept := Pandas.drop_duplicates (Pandas.labelled (Text <$> cells))) in *.
  assert (Hidx : row_index <$> df = row_index <$> kept).
  { apply (f_equal (fmap fst)) in Hkeys. by rewrite <- !list_fmap_compose in Hkeys. }
  assert (Hnames : application_name <$> df = application_name <$> kept).
  { apply (f_equal (fmap snd)) in Hkeys. by rewrite <- !list_fmap_compose in Hkeys. }
  exists df, st'. split; [exact Hrun|]. split; [|split; [|split; [|split]]].
  - rewrite <- (length_fmap application_name), Hnames, length_fmap.
    unfold kept, Pandas.drop_duplicates.
    rewrite drop_duplicates_from_length, labelled_names, <- size_texts. simpl.
    f_equal. apply set_eq. intros x. rewrite elem_of_difference.
    split; [intros [? _]; done|]. intros ?. split; [done|]. apply not_elem_of_empty.
  - intros name Hname.
    destruct (drop_duplicates_from_covers [] (Pandas.labelled (Text <$> cells))
                (Text name)) as [Hnil|Hin].
    + rewrite labelled_names. apply list_elem_of_fmap. by exists name.
    + by apply elem_of_nil in Hnil.
    + fold (Pandas.drop_duplicates (Pandas.labelled (Text <$> cells))) in Hin.
      fold kept in Hin. rewrite <- Hnames in Hin.
      apply list_elem_of_fmap in Hin as (r & Hr & Hin). by exists r.
  - intros r Hr.
    assert (Hkey : (row_index r, application_name r)
                   ∈ (λ r, (row_index r, application_name r)) <$> kept).
    { rewrite <- Hkeys. apply list_elem_of_fmap. by exists r. }
    apply list_elem_of_fmap in Hkey as (r0 & [= Hi Hn] & Hr0).
    destruct (drop_duplicates_from_first [] (Text <$> cells) [] r0) as (H1 & H2 & _);
      [done|exact Hr0|].
    simpl in H1, H2. rewrite <- Hi, <- Hn in H1, H2.
    rewrite list_lookup_fmap in H1.
    destruct (cells !! row_index r) as [name|] eqn:Hname; [|done].
    injection H1 as H1. exists name. split; [done|]. split; [done|].
    intros Hin. apply H2. rewrite <- H1, <- fmap_take.
    apply list_elem_of_fmap. by exists name.
  - rewrite Hidx. apply (drop_duplicates_from_sorted 0 (Text <$> cells) []).
  - exact Hrows.
Qed.


(** Where a record comes from: the gate, a failure, or structured data
    that the decoder returned. *)
Lemma fetch_origin (env : Env) (id : string) (st st' : Scraper.state env)
    (r : metadata) :
  Scraper.call env (Scraper.fetch env id) st = (Ok r, st') →
  r = sentinel "Not found"
  ∨ ∃ text data, json_loads env text = Ok data ∧ Scraper.extract env id data = Ok r.
Proof.
  destruct st as [w log]. unfold Scraper.call. run_body. unfold Scraper.loads.
  destruct (requests_get env (Scraper.details_url id) w) as [[resp|e] w'];
    simpl; [|by intros [= <- _]; left].
  repeat case_match; simplify_eq; intros [= <- _]; eauto.
Qed.

Lemma scrape_origin (env : Env) (app_name : string) (st st' : Scraper.state env)
    (r : metadata) :
  Scraper.call env (Scraper.scrape_google_play env app_name) st = (Ok r, st') →
  r = sentinel "Not applicable"
  ∨ r = sentinel "Not found"
  ∨ ∃ id text data, json_loads env text = Ok data ∧ Scraper.extract env id data = Ok r.
Proof.
  destruct st as [w log].
  unfold Scraper.call at 1, Scraper.scrape_google_play.
  destruct (_ && _); [by intros [= <- _]; left|].
  unfold mbind, Scraper.M_bind.
  destruct (resolve_run env app_name w log)
    as [[_ ->]|(_ & out & -> & [->|[id ->]])].
  - intros Hrun. destruct (fetch_origin env app_name (w, log) st' r Hrun)
      as [->|(text & data & ? & ?)]; [by right; left|]. right; right. eauto.
  - intros [= <- _]. by right; left.
  - intros Hrun. destruct (fetch_origin env id _ st' r Hrun)
      as [->|(text & data & ? & ?)]; [by right; left|]. right; right. eauto.
Qed.

Lemma one_record_witness :
  let env := Fixtures.store_with Fixtures.rated_text (Some Fixtures.rated_data) in
  let cells := ["com.example.app"; "example"; "com.example.app"] in
  let lib := Sheets.object_columns (Text <$> cells) in
  ∃ df st',
    Loader.load_and_process_excel env lib "apps.xlsx" None (tt, []) = (Ok df, st')
    ∧ length df = size (list_to_set (C := gset string) cells)
    ∧ (∀ name, name ∈ cells → ∃ r, r ∈ df ∧ application_name r = Text name)
    ∧ (∀ r, r ∈ df →
         ∃ name,
           application_name r = Text name
           ∧ cells !! row_index r = Some name
           ∧ (name ∉ take (row_index r) cells))
    ∧ StronglySorted lt (row_index <$> df)
    ∧ Loader.scraped env (tt, []) df st'.
Proof.
  apply (one_record_per_distinct_name
           (Fixtures.store_with Fixtures.rated_text (Some Fixtures.rated_data))
           (Sheets.object_columns
              (Text <$> ["com.example.app"; "example"; "com.example.app"]))
           "apps.xlsx" ["com.example.app"; "example"; "com.example.app"] (tt, []));
    [reflexivity|].
  intros name st0 record st1 _ Hcall.
  destruct (scrape_origin _ _ _ _ _ Hcall)
    as [->|[->|(id & text & data & Hdata & Hrecord)]];
    [repeat constructor..|].
  change (json_loads _ text)
    with (if String.eqb Fixtures.rated_text text
          then Ok Fixtures.rated_data else Err ValueError) in Hdata.
  destruct (String.eqb Fixtures.rated_text text); [|discriminate Hdata].
  injection Hdata as <-. vm_compute in Hrecord. injection Hrecord as <-.
  repeat constructor.
Defined.

(** C9, as the specification states it, does not hold: it would have a
    table for every list of names. When the structured data of an
    application gives its name as a list of two texts, the record holds
    that list, the assignment at line 164 raises, and the run ends without
    a table. *)
Lemma one_record_counterexample :
  ¬ (∀ (env : Env) (lib : Pandas.Library) (filename : string) (cells : list string)
       (st : Scraper.state env),
       Pandas.read_excel lib filename = Ok [Text <$> cells] →
       ∃ df st',
         Loader.load_and_process_excel env lib filename None st = (Ok df, st')
         ∧ length df = size (list_to_set (C := gset string) cells)
         ∧ (∀ name, name ∈ cells → ∃ r, r ∈ df ∧ application_name r = Text name)
         ∧ (∀ r, r ∈ df →
              ∃ name,
                application_name r = Text name
                ∧ cells !! row_index r = Some name
                ∧ (name ∉ take (row_index r) cells))
         ∧ StronglySorted lt (row_index <$> df)
         ∧ Loader.scraped env st df st').
Proof.
  intros Hclaim.
  destruct (Hclaim
              (Fixtures.store_with Sheets.two_names_text (Some Sheets.two_names_data))
              (Sheets.object_columns [Text "com.example.app"])
              "apps.xlsx" ["com.example.app"] (tt, []) eq_refl)
    as (df & st' & Hrun & _).
  vm_compute in Hrun. discriminate Hrun.
Qed.
